(** * The growth-chart data hook [useGrowthData]

    A shallow embedding of [src/charts/growth-chart.resource.ts] and the
    properties of its specification.

    The hook calls the SWR collaborator once, with a cache key that is either
    the observation query or [null], and reshapes the payload it gets back
    into two lists of measurements.  The embedding keeps

    - the values as the TypeScript declarations have them: every optional
      field of a FHIR observation is an [option], a JavaScript [number] is a
      binary64 float, arrays are lists;
    - the call of the collaborator as an event of a small free monad, so that
      the key the hook passes is a property of the program;
    - the [TypeError] that destructuring an absent [resource] raises, as an
      abrupt completion. *)

From Stdlib Require Import String Ascii List ZArith Bool Lia.
From Stdlib Require Import PrimFloat DecimalString.
Import ListNotations.

Local Open Scope string_scope.

(** ** JavaScript values and primitives *)

Module JS.

(** A JavaScript [number] is an IEEE 754 binary64 value. *)
Definition number : Type := float.

(** [ToBoolean] on a number: [+0], [-0] and [NaN] are falsy. *)
Definition ToBoolean_number (x : number) : bool :=
  negb (PrimFloat.is_zero x || PrimFloat.is_nan x).

(** [ToBoolean] on a string: only the empty string is falsy. *)
Definition ToBoolean_string (s : string) : bool :=
  match s with
  | EmptyString => false
  | String _ _ => true
  end.

(** [ToBoolean] on a value that may be [undefined] (or [null]). *)
Definition ToBoolean_opt {A : Type} (tb : A -> bool) (o : option A) : bool :=
  match o with
  | None => false
  | Some a => tb a
  end.

(** Optional chaining [o?.f]: [undefined] when [o] is [undefined]. *)
Definition optChain {A B : Type} (o : option A) (f : A -> option B)
  : option B :=
  match o with
  | None => None
  | Some a => f a
  end.

(** [String.prototype.toLowerCase] on the code units A-Z.  The strings of
    the model are sequences of 8-bit units, and a unit outside A-Z is left
    as it is.  The hook compares the result with "height" and "weight"
    only, and no character outside A-Z has one of their letters as its
    lower case, so the comparisons of lines 59 and 61 are the ones of the
    source. *)
Definition lower_ascii (c : ascii) : ascii :=
  let n := nat_of_ascii c in
  if (65 <=? n)%nat && (n <=? 90)%nat then ascii_of_nat (n + 32) else c.

Fixpoint toLowerCase (s : string) : string :=
  match s with
  | EmptyString => EmptyString
  | String c s' => String (lower_ascii c) (toLowerCase s')
  end.

(** A template literal prints [undefined] as the word. *)
Definition template (o : option string) : string :=
  match o with
  | None => "undefined"
  | Some s => s
  end.

(** Strict equality [x === lit] of a possibly undefined string with a
    string literal. *)
Definition strictEq (o : option string) (lit : string) : bool :=
  match o with
  | None => false
  | Some s => String.eqb s lit
  end.

(** An exception value. *)
Inductive exn : Type :=
| TypeError (message : string).

(** How an evaluation ends: normally with a value, or abruptly with a
    thrown exception. *)
Inductive Completion (A : Type) : Type :=
| Normal (a : A)
| Abrupt (e : exn).
Arguments Normal {A} a.
Arguments Abrupt {A} e.

(** [Array.prototype.forEach] with a callback that updates the state [S]
    it closes over; a throw in the callback leaves the loop. *)
Fixpoint forEach {A S : Type} (l : list A) (f : A -> S -> Completion S)
  (s : S) : Completion S :=
  match l with
  | [] => Normal s
  | a :: l' =>
      match f a s with
      | Normal s' => forEach l' f s'
      | Abrupt e => Abrupt e
      end
  end.

End JS.

Import JS.

(** ** The data model *)

(** [fhir.Quantity]: both fields are optional. *)
Module Quantity.
Record t : Type := mk { value : option number; unit : option string }.
End Quantity.

(** [fhir.Coding], of which the hook reads [code]: a string when it is
    there, as declared. *)
Module Coding.
Record t : Type := mk { code : option string }.
End Coding.

(** [fhir.CodeableConcept], of which the hook reads [coding]. *)
Module CodeableConcept.
Record t : Type := mk { coding : option (list Coding.t) }.
End CodeableConcept.

(** [fhir.Observation], restricted to the three fields the hook reads. *)
Module Observation.
Record t : Type := mk {
  effectiveDateTime : option string;
  valueQuantity : option Quantity.t;
  code : option CodeableConcept.t
}.
End Observation.

(** One element of the payload array.  The declared type makes [resource]
    mandatory; the payload is parsed JSON, so the model keeps the case of an
    element without it, where the destructuring of line 47 throws. *)
Module Entry.
Record t : Type := mk { resource : option Observation.t }.
End Entry.

(** The payload [{ data: Array<{ resource }> }]; the hook reads [data] with
    [?.], so the array may be absent.  A [data] that is present and is not
    an array, on which [forEach] is no function, is outside the declared
    type and has no counterpart here. *)
Module Payload.
Record t : Type := mk { data : option (list Entry.t) }.
End Payload.

(** The error object of the collaborator. *)
Module Error.
Record t : Type := mk { name : string; message : string }.
End Error.

(** What [useSWR] returns, restricted to the three fields the hook
    destructures.  [None] stands for [undefined]. *)
Module SWRResponse.
Record t : Type := mk {
  data : option Payload.t;
  error : option Error.t;
  isLoading : bool
}.
End SWRResponse.

(** The object literal of lines 51-55. *)
Module Measurement.
Record t : Type := mk { date : string; value : number; unit : string }.
End Measurement.

(** The object literal of lines 40-43. *)
Module GrowthSeries.
Record t : Type := mk {
  height : list Measurement.t;
  weight : list Measurement.t
}.

Definition empty : t := mk [] [].

(** [growthData.height.push(m)] and [growthData.weight.push(m)]. *)
Definition push_height (m : Measurement.t) (g : t) : t :=
  mk (height g ++ [m]) (weight g).
Definition push_weight (m : Measurement.t) (g : t) : t :=
  mk (height g) (weight g ++ [m]).
End GrowthSeries.

(** The object the hook returns (lines 68-72). *)
Module HookResult.
Record t : Type := mk {
  growthData : GrowthSeries.t;
  isLoading : bool;
  error : option Error.t
}.
End HookResult.

(** ** The hook as a program that calls the collaborator *)

(** A hook either is done, or calls [useSWR] with a key and goes on with the
    response.  The fetcher argument is always [openmrsFetch] and is left
    out. *)
Inductive Hook (A : Type) : Type :=
| Done (c : Completion A)
| UseSWR (key : option string) (k : SWRResponse.t -> Hook A).
Arguments Done {A} c.
Arguments UseSWR {A} key k.

Definition ret {A : Type} (a : A) : Hook A := Done (Normal a).

Fixpoint bind {A B : Type} (h : Hook A) (f : A -> Hook B) : Hook B :=
  match h with
  | Done (Normal a) => f a
  | Done (Abrupt e) => Done (Abrupt e)
  | UseSWR key k => UseSWR key (fun r => bind (k r) f)
  end.

Definition useSWR (key : option string) : Hook SWRResponse.t :=
  UseSWR key ret.

Notation "x <- c ;; k" := (bind c (fun x => k))
  (at level 61, c at next level, right associativity).

(** A collaborator answers every key with a response. *)
Definition Collaborator : Type := option string -> SWRResponse.t.

(** Running a hook against a collaborator. *)
Fixpoint run {A : Type} (swr : Collaborator) (h : Hook A) : Completion A :=
  match h with
  | Done c => c
  | UseSWR key k => run swr (k (swr key))
  end.

(** The keys the hook passes to the collaborator, in call order. *)
Fixpoint keysPassed {A : Type} (swr : Collaborator) (h : Hook A)
  : list (option string) :=
  match h with
  | Done _ => []
  | UseSWR key k => key :: keysPassed swr (k (swr key))
  end.

Section UseGrowthData.

(** [fhirBaseUrl] of the framework. *)
Variable fhirBaseUrl : string.

(** [new Date(s).toLocaleDateString()] of the host: it depends on the
    locale and on the time zone of the machine the hook runs on. *)
Variable toLocaleDateString : string -> string.

(** Line 58, up to the call of [toLowerCase]:
    [resource?.code?.coding?.[0]?.code]. *)
Definition firstCodingCode (resource : Observation.t) : option string :=
  optChain (optChain (optChain (Observation.code resource)
                               CodeableConcept.coding)
                     (@hd_error Coding.t))
           Coding.code.

(** Line 58: [resource?.code?.coding?.[0]?.code?.toLowerCase()]. *)
Definition codeOf (resource : Observation.t) : option string :=
  option_map toLowerCase (firstCodingCode resource).

(** Lines 46-65: the callback of [forEach], on the [growthData] it
    closes over. *)
Definition onEntry (entry : Entry.t) (growthData : GrowthSeries.t)
  : Completion GrowthSeries.t :=
  match Entry.resource entry with
  | None =>
      Abrupt (TypeError
        "Cannot destructure property 'effectiveDateTime' of 'resource' as it is undefined.")
  | Some resource =>
      let effectiveDateTime := Observation.effectiveDateTime resource in
      let valueQuantity := Observation.valueQuantity resource in
      match effectiveDateTime,
            optChain valueQuantity Quantity.value,
            optChain valueQuantity Quantity.unit with
      | Some d, Some v, Some u =>
          if ToBoolean_string d && ToBoolean_number v && ToBoolean_string u
          then
            let measurement :=
              Measurement.mk (toLocaleDateString d) v u in
            let code := codeOf resource in
            if strictEq code "height" then
              Normal (GrowthSeries.push_height measurement growthData)
            else if strictEq code "weight" then
              Normal (GrowthSeries.push_weight measurement growthData)
            else Normal growthData
          else Normal growthData
      | _, _, _ => Normal growthData
      end
  end.

(** Lines 40-66: from the collaborator's [data] to [growthData]. *)
Definition reshape (data : option Payload.t) : Completion GrowthSeries.t :=
  let growthData := GrowthSeries.empty in
  match data with
  | Some d =>
      match Payload.data d with
      | Some entries => forEach entries onEntry growthData
      | None => Normal growthData
      end
  | None => Normal growthData
  end.

(** Line 33: the query. *)
Definition apiUrl (patientUuid : option string) : string :=
  fhirBaseUrl ++ "/Observation?patient=" ++ template patientUuid
    ++ "&code=height,weight".

(** Line 37: [patientUuid ? apiUrl : null]. *)
Definition swrKey (patientUuid : option string) : option string :=
  if ToBoolean_opt ToBoolean_string patientUuid
  then Some (apiUrl patientUuid) else None.

(** The hook.  [patientUuid] is declared a string; a caller without
    strict null checks passes [undefined], which is [None] here. *)
Definition useGrowthData (patientUuid : option string)
  : Hook HookResult.t :=
  r <- useSWR (swrKey patientUuid) ;;
  growthData <- Done (reshape (SWRResponse.data r)) ;;
  ret (HookResult.mk growthData (SWRResponse.isLoading r)
         (SWRResponse.error r)).

(** *** The payloads of the declared type, and what they hold *)

(** A payload array of the declared type: every element has its
    [resource]. *)
Definition entriesOf (obs : list Observation.t) : list Entry.t :=
  map (fun o => Entry.mk (Some o)) obs.

(** The series the hook builds from a payload of the declared type. *)
Definition seriesOf (obs : list Observation.t) : Completion GrowthSeries.t :=
  reshape (Some (Payload.mk (Some (entriesOf obs)))).

(** The measurement an observation stands for, when the test of line 50
    lets it through. *)
Definition measured (o : Observation.t) : option Measurement.t :=
  match Observation.effectiveDateTime o,
        optChain (Observation.valueQuantity o) Quantity.value,
        optChain (Observation.valueQuantity o) Quantity.unit with
  | Some d, Some v, Some u =>
      if ToBoolean_string d && ToBoolean_number v && ToBoolean_string u
      then Some (Measurement.mk (toLocaleDateString d) v u)
      else None
  | _, _, _ => None
  end.

(** The measurement of an observation whose normalised code is [lit]. *)
Definition routed (lit : string) (o : Observation.t)
  : option Measurement.t :=
  if strictEq (codeOf o) lit then measured o else None.

(** An observation that lacks one of the three fields of a measurement. *)
Definition missingField (o : Observation.t) : Prop :=
  Observation.effectiveDateTime o = None
  \/ optChain (Observation.valueQuantity o) Quantity.value = None
  \/ optChain (Observation.valueQuantity o) Quantity.unit = None.

(** A measurement that is the image of an observation with its three
    fields present and truthy. *)
Definition populatedFrom (o : Observation.t) (m : Measurement.t) : Prop :=
  exists d q v u,
    Observation.effectiveDateTime o = Some d
    /\ Observation.valueQuantity o = Some q
    /\ Quantity.value q = Some v
    /\ Quantity.unit q = Some u
    /\ d <> "" /\ ToBoolean_number v = true /\ u <> ""
    /\ m = Measurement.mk (toLocaleDateString d) v u.

(** A response whose payload, when there is one, has the declared type. *)
Definition declaredType (r : SWRResponse.t) : Prop :=
  forall p entries,
    SWRResponse.data r = Some p -> Payload.data p = Some entries ->
    exists obs, entries = entriesOf obs.

End UseGrowthData.

(** The elements of a list that [f] keeps, in the order of the list. *)
Fixpoint keep {A B : Type} (f : A -> option B) (l : list A) : list B :=
  match l with
  | [] => []
  | a :: l' =>
      match f a with
      | Some b => b :: keep f l'
      | None => keep f l'
      end
  end.

(** The value of a completion under a function. *)
Definition mapCompletion {A B : Type} (f : A -> B) (c : Completion A)
  : Completion B :=
  match c with
  | Normal a => Normal (f a)
  | Abrupt e => Abrupt e
  end.

(** Modelled from the spec: the contract of the fetch-and-cache
    collaborator ([useSWR], an external library) for the null key.  The
    request is suppressed: there is no data, no error, and nothing is
    loading. *)
Definition suppressesNullKey (swr : Collaborator) : Prop :=
  swr None = SWRResponse.mk None None false.

(** A collaborator over a table of responses that honours the contract. *)
Definition cachedCollaborator (cache : string -> SWRResponse.t)
  : Collaborator :=
  fun key =>
    match key with
    | None => SWRResponse.mk None None false
    | Some k => cache k
    end.


(** ** The host's [Date]

    [new Date(s).toLocaleDateString()] is a function of the host: of its
    time zone and of its locale.  The model below covers the date-only ISO
    form [YYYY-MM-DD], which ECMAScript reads as midnight UTC; every other
    string is left to the host. *)

Module Date.

Definition msPerDay : Z := 86400000.

Definition isLeapYear (y : Z) : bool :=
  ((y mod 4 =? 0) && negb (y mod 100 =? 0) || (y mod 400 =? 0))%Z.

Definition daysInMonth (y m : Z) : Z :=
  if (m =? 2)%Z then (if isLeapYear y then 29 else 28)
  else if ((m =? 4) || (m =? 6) || (m =? 9) || (m =? 11))%Z then 30
  else 31.

(** The day number of a calendar date, counted from 1970-01-01. *)
Definition daysFromCivil (y m d : Z) : Z :=
  let y' := if (m <=? 2)%Z then (y - 1)%Z else y in
  let era := (y' / 400)%Z in
  let yoe := (y' - era * 400)%Z in
  let mp := ((m + 9) mod 12)%Z in
  let doy := ((153 * mp + 2) / 5 + d - 1)%Z in
  let doe := (yoe * 365 + yoe / 4 - yoe / 100 + doy)%Z in
  (era * 146097 + doe - 719468)%Z.

(** The calendar date (year, month, day of the month) of a day number. *)
Definition civilFromDays (z : Z) : Z * Z * Z :=
  let z := (z + 719468)%Z in
  let era := (z / 146097)%Z in
  let doe := (z - era * 146097)%Z in
  let yoe := ((doe - doe / 1460 + doe / 36524 - doe / 146096) / 365)%Z in
  let y := (yoe + era * 400)%Z in
  let doy := (doe - (365 * yoe + yoe / 4 - yoe / 100))%Z in
  let mp := ((5 * doy + 2) / 153)%Z in
  let d := (doy - (153 * mp + 2) / 5 + 1)%Z in
  let m := if (mp <? 10)%Z then (mp + 3)%Z else (mp - 9)%Z in
  (if (m <=? 2)%Z then (y + 1)%Z else y, m, d).

(** [civilFromDays] gives a date that exists and that [daysFromCivil]
    sends back, on the [n] days from [z] on. *)
Fixpoint roundTrips (n : nat) (z : Z) : bool :=
  match n with
  | O => true
  | S n' =>
      let '(y, m, d) := civilFromDays z in
      ((daysFromCivil y m d =? z)
       && (1 <=? m) && (m <=? 12)
       && (1 <=? d) && (d <=? daysInMonth y m))%Z
      && roundTrips n' (z + 1)%Z
  end.

Definition digit (c : ascii) : option Z :=
  let n := nat_of_ascii c in
  if (48 <=? n)%nat && (n <=? 57)%nat then Some (Z.of_nat (n - 48)) else None.

Fixpoint digits (acc : Z) (l : list ascii) : option Z :=
  match l with
  | [] => Some acc
  | c :: l' =>
      match digit c with
      | Some d => digits (10 * acc + d)%Z l'
      | None => None
      end
  end.

(** [YYYY-MM-DD] with a month and a day that exist. *)
Definition parseDateOnly (s : string) : option (Z * Z * Z) :=
  match list_ascii_of_string s with
  | [y1; y2; y3; y4; "-"%char; m1; m2; "-"%char; d1; d2] =>
      match digits 0 [y1; y2; y3; y4], digits 0 [m1; m2], digits 0 [d1; d2]
      with
      | Some y, Some m, Some d =>
          if ((1 <=? m) && (m <=? 12) && (1 <=? d) && (d <=? daysInMonth y m))%Z
          then Some (y, m, d) else None
      | _, _, _ => None
      end
  | _ => None
  end.

(** What the host adds to the language: the offset of local time from UTC
    at a given instant (in milliseconds), the date pattern of the default
    locale, and the reading of the strings that are not date-only ISO. *)
Record Host : Type := mkHost {
  LocalTZA : Z -> Z;
  formatDate : Z -> Z -> Z -> string;
  parseOther : string -> option Z
}.

(** [Date.parse]: milliseconds since the epoch, [None] for [NaN]. *)
Definition parse (h : Host) (s : string) : option Z :=
  match parseDateOnly s with
  | Some (y, m, d) => Some (daysFromCivil y m d * msPerDay)%Z
  | None => parseOther h s
  end.

(** [new Date(s).toLocaleDateString()]. *)
Definition toLocaleDateString (h : Host) (s : string) : string :=
  match parse h s with
  | None => "Invalid Date"
  | Some t =>
      let '(y, m, d) := civilFromDays ((t + LocalTZA h t) / msPerDay) in
      formatDate h y m d
  end.

Definition decimal (z : Z) : string :=
  NilZero.string_of_uint (N.to_uint (Z.to_N z)).

Definition pad2 (z : Z) : string :=
  if (z <? 10)%Z then "0" ++ decimal z else decimal z.

(** The numeric date pattern of en-US: month/day/year. *)
Definition en_US (y m d : Z) : string :=
  decimal m ++ "/" ++ decimal d ++ "/" ++ decimal y.

(** The numeric date pattern of en-GB: day/month/year, two digits each. *)
Definition en_GB (y m d : Z) : string :=
  pad2 d ++ "/" ++ pad2 m ++ "/" ++ decimal y.

(** Three hosts: UTC with en-US, New York in winter (UTC-5) with en-US,
    London in winter (UTC+0) with en-GB. *)
Definition utc_en_US : Host := mkHost (fun _ => 0%Z) en_US (fun _ => None).
Definition new_york_en_US : Host :=
  mkHost (fun _ => (-18000000)%Z) en_US (fun _ => None).
Definition london_en_GB : Host := mkHost (fun _ => 0%Z) en_GB (fun _ => None).

End Date.

(** ** The scenario of the specification *)

Module Scenario.

Definition observation : Observation.t :=
  Observation.mk
    (Some "2024-01-01")
    (Some (Quantity.mk (Some 70%float) (Some "cm")))
    (Some (CodeableConcept.mk (Some [Coding.mk (Some "height")]))).

Definition response : SWRResponse.t :=
  SWRResponse.mk
    (Some (Payload.mk (Some [Entry.mk (Some observation)]))) None false.

Definition expected : GrowthSeries.t :=
  GrowthSeries.mk [Measurement.mk "1/1/2024" 70%float "cm"] [].

(** The instant [2024-01-01T00:00:00Z], in milliseconds. *)
Definition newYear2024 : Z := 1704067200000.

(** The scenario on a host [h]: for [patientUuid = "123"] and a response
    whose data is the one entry above, the hook returns the expected
    series. *)
Definition holdsOn (h : Date.Host) : Prop :=
  forall (fhirBaseUrl : string) (swr : Collaborator),
    SWRResponse.data (swr (swrKey fhirBaseUrl (Some "123")))
    = SWRResponse.data response ->
    exists res,
      run swr (useGrowthData fhirBaseUrl (Date.toLocaleDateString h)
                 (Some "123")) = Normal res
      /\ HookResult.growthData res = expected.

End Scenario.

(** ** Sample inputs *)

Module Sample.

Definition fhirBaseUrl : string := "/ws/fhir2/R4".

Definition observation (date : option string) (value : option number)
  (unit : option string) (code : option string) : Observation.t :=
  Observation.mk date (Some (Quantity.mk value unit))
    (Some (CodeableConcept.mk (Some [Coding.mk code]))).

Definition heightA : Observation.t :=
  observation (Some "2024-01-01") (Some 70%float) (Some "cm") (Some "Height").
Definition weightB : Observation.t :=
  observation (Some "2024-02-01") (Some 9.5%float) (Some "kg") (Some "WEIGHT").
Definition bmi : Observation.t :=
  observation (Some "2024-03-01") (Some 17%float) (Some "kg/m2") (Some "bmi").
Definition undated : Observation.t :=
  observation None (Some 71%float) (Some "cm") (Some "height").
Definition zeroValued : Observation.t :=
  observation (Some "2024-04-01") (Some 0%float) (Some "kg") (Some "weight").

Definition mA : Measurement.t := Measurement.mk "1/1/2024" 70%float "cm".
Definition mB : Measurement.t := Measurement.mk "2/1/2024" 9.5%float "kg".

(** A collaborator that has the scenario's response for every query. *)
Definition loaded : Collaborator :=
  cachedCollaborator (fun _ => Scenario.response).

(** A collaborator whose fetches fail. *)
Definition networkError : Error.t := Error.mk "TypeError" "Failed to fetch".
Definition failing : Collaborator :=
  cachedCollaborator
    (fun _ => SWRResponse.mk None (Some networkError) false).

(** A collaborator whose payload has no inner array. *)
Definition unwrapped : Collaborator :=
  cachedCollaborator
    (fun _ => SWRResponse.mk (Some (Payload.mk None)) None false).

(** The data of [loaded], kept after a revalidation that failed. *)
Definition stale : Collaborator :=
  cachedCollaborator
    (fun _ => SWRResponse.mk (SWRResponse.data Scenario.response)
                (Some networkError) false).

Definition toLocaleDateString : string -> string :=
  Date.toLocaleDateString Date.utc_en_US.

End Sample.

(** ** What the hook reads of a payload *)

(** Two observations with the same date, the same quantity and the same
    code in their first coding: lines 47 and 58 read nothing else. *)
Definition sameReading (o1 o2 : Observation.t) : Prop :=
  Observation.effectiveDateTime o1 = Observation.effectiveDateTime o2
  /\ Observation.valueQuantity o1 = Observation.valueQuantity o2
  /\ firstCodingCode o1 = firstCodingCode o2.

(** A payload element that has no [resource]. *)
Definition withoutResource (e : Entry.t) : Prop :=
  Entry.resource e = None.

(** An observation whose normalised code is one of the two literals. *)
Definition codedAs (lit : string) (o : Observation.t) : Prop :=
  exists c, firstCodingCode o = Some c /\ toLowerCase c = lit.

(** ** More sample inputs *)

Module Case.

(** An observation with two codings, the word "height" in the second. *)
Definition loincFirst : Observation.t :=
  Observation.mk (Some "2024-01-01")
    (Some (Quantity.mk (Some 70%float) (Some "cm")))
    (Some (CodeableConcept.mk
             (Some [Coding.mk (Some "8302-2"); Coding.mk (Some "height")]))).

(** The same observation with its first coding only. *)
Definition loincOnly : Observation.t :=
  Observation.mk (Some "2024-01-01")
    (Some (Quantity.mk (Some 70%float) (Some "cm")))
    (Some (CodeableConcept.mk (Some [Coding.mk (Some "8302-2")]))).

(** A date that is no date. *)
Definition undatable : Observation.t :=
  Sample.observation (Some "soon") (Some 70%float) (Some "cm")
    (Some "height").

(** A reading of negative zero. *)
Definition negativeZero : Observation.t :=
  Sample.observation (Some "2024-04-01") (Some PrimFloat.neg_zero)
    (Some "kg") (Some "weight").


(** A payload whose second element has lost its [resource]. *)
Definition brokenEntries : list Entry.t :=
  [Entry.mk (Some Sample.heightA); Entry.mk None;
   Entry.mk (Some Sample.weightB)].

Definition broken : Collaborator :=
  cachedCollaborator
    (fun _ => SWRResponse.mk (Some (Payload.mk (Some brokenEntries)))
                None false).

(** The same payload without its second element. *)
Definition mendedEntries : list Entry.t :=
  [Entry.mk (Some Sample.heightA); Entry.mk (Some Sample.weightB)].

Definition mended : Collaborator :=
  cachedCollaborator
    (fun _ => SWRResponse.mk (Some (Payload.mk (Some mendedEntries)))
                None false).

(** The broken payload, kept next to an error. *)
Definition brokenAndFailing : Collaborator :=
  cachedCollaborator
    (fun _ => SWRResponse.mk (Some (Payload.mk (Some brokenEntries)))
                (Some Sample.networkError) false).

End Case.

(** * Properties *)

Local Open Scope list_scope.

(** ** Lists and completions *)

Lemma keep_app {A B : Type} (f : A -> option B) (l1 l2 : list A) :
  keep f (l1 ++ l2) = keep f l1 ++ keep f l2.
Proof.
  induction l1 as [|a l1 IH]; simpl.
  - reflexivity.
  - destruct (f a); simpl; now rewrite IH.
Qed.

Lemma in_keep {A B : Type} (f : A -> option B) (l : list A) (b : B) :
  In b (keep f l) -> exists a, In a l /\ f a = Some b.
Proof.
  induction l as [|a l IH]; simpl.
  - intros [].
  - destruct (f a) as [b'|] eqn:E.
    + intros [<-|H].
      * exists a. auto.
      * destruct (IH H) as (a' & Ha & Hf). exists a'. auto.
    + intros H. destruct (IH H) as (a' & Ha & Hf). exists a'. auto.
Qed.

Lemma ToBoolean_string_true (s : string) :
  ToBoolean_string s = true <-> s <> "".
Proof.
  destruct s; simpl; split; intro H; congruence.
Qed.

Lemma strictEq_true (o : option string) (lit : string) :
  strictEq o lit = true <-> o = Some lit.
Proof.
  destruct o as [s|]; simpl.
  - rewrite String.eqb_eq. split; congruence.
  - split; discriminate.
Qed.

Lemma strictEq_false (o : option string) (lit : string) :
  strictEq o lit = false <-> o <> Some lit.
Proof.
  rewrite <- strictEq_true. destruct (strictEq o lit); split; congruence.
Qed.

(** ** The collaborator is called once, with the key of line 37 *)

Section HookFacts.

Variable fhirBaseUrl : string.
Variable toLocaleDateString : string -> string.

Local Abbreviation hook := (useGrowthData fhirBaseUrl toLocaleDateString).
Local Abbreviation key := (swrKey fhirBaseUrl).
Local Abbreviation entry := (onEntry toLocaleDateString).
Local Abbreviation measure := (measured toLocaleDateString).
Local Abbreviation route := (routed toLocaleDateString).
Local Abbreviation series := (seriesOf toLocaleDateString).

Lemma run_useGrowthData (swr : Collaborator) (patientUuid : option string) :
  run swr (hook patientUuid) =
  mapCompletion
    (fun g => HookResult.mk g
                (SWRResponse.isLoading (swr (key patientUuid)))
                (SWRResponse.error (swr (key patientUuid))))
    (reshape toLocaleDateString (SWRResponse.data (swr (key patientUuid)))).
Proof.
  unfold useGrowthData, useSWR. simpl.
  destruct (reshape _ _); reflexivity.
Qed.

Lemma keysPassed_useGrowthData (swr : Collaborator)
  (patientUuid : option string) :
  keysPassed swr (hook patientUuid) = [key patientUuid].
Proof.
  unfold useGrowthData, useSWR. simpl.
  destruct (reshape _ _); reflexivity.
Qed.

(** ** One step of the loop on an element of the declared type *)

Lemma onEntry_declared (o : Observation.t) (g : GrowthSeries.t) :
  entry (Entry.mk (Some o)) g =
  Normal
    match measure o with
    | Some m =>
        if strictEq (codeOf o) "height" then GrowthSeries.push_height m g
        else if strictEq (codeOf o) "weight" then GrowthSeries.push_weight m g
        else g
    | None => g
    end.
Proof.
  unfold onEntry, measured. simpl.
  destruct (Observation.effectiveDateTime o) as [d|]; [|reflexivity].
  destruct (optChain (Observation.valueQuantity o) Quantity.value) as [v|];
    [|reflexivity].
  destruct (optChain (Observation.valueQuantity o) Quantity.unit) as [u|];
    [|reflexivity].
  destruct (ToBoolean_string d && ToBoolean_number v && ToBoolean_string u);
    [|reflexivity].
  destruct (strictEq (codeOf o) "height"); [reflexivity|].
  destruct (strictEq (codeOf o) "weight"); reflexivity.
Qed.

Lemma onEntry_unmeasured (o : Observation.t) (g : GrowthSeries.t) :
  measure o = None -> entry (Entry.mk (Some o)) g = Normal g.
Proof.
  intros H. rewrite onEntry_declared, H. reflexivity.
Qed.

Lemma height_is_not_weight (c : option string) :
  strictEq c "height" = true -> strictEq c "weight" = false.
Proof.
  rewrite strictEq_true, strictEq_false. intros ->. discriminate.
Qed.

(** The loop on a payload of the declared type ends normally; it appends
    to each list the measurements routed to it, in the order of the
    payload. *)
Lemma forEach_declared (obs : list Observation.t) (g : GrowthSeries.t) :
  forEach (entriesOf obs) entry g =
  Normal (GrowthSeries.mk
            (GrowthSeries.height g ++ keep (route "height") obs)
            (GrowthSeries.weight g ++ keep (route "weight") obs)).
Proof.
  revert g. induction obs as [|o obs IH]; intros g.
  - simpl. rewrite !app_nil_r. now destruct g.
  - simpl. rewrite onEntry_declared.
    unfold routed.
    destruct (measure o) as [m|] eqn:Em.
    + destruct (strictEq (codeOf o) "height") eqn:Eh.
      * rewrite (height_is_not_weight _ Eh).
        rewrite IH. simpl. now rewrite <- app_assoc.
      * destruct (strictEq (codeOf o) "weight") eqn:Ew.
        -- rewrite IH. simpl. now rewrite <- app_assoc.
        -- apply IH.
    + destruct (strictEq (codeOf o) "height"),
               (strictEq (codeOf o) "weight"); apply IH.
Qed.

Lemma seriesOf_keep (obs : list Observation.t) :
  series obs =
  Normal (GrowthSeries.mk (keep (route "height") obs)
                          (keep (route "weight") obs)).
Proof.
  unfold seriesOf, reshape. simpl. now rewrite forEach_declared.
Qed.

Lemma measured_populated (o : Observation.t) (m : Measurement.t) :
  measure o = Some m -> populatedFrom toLocaleDateString o m.
Proof.
  unfold measured, populatedFrom.
  destruct (Observation.effectiveDateTime o) as [d|]; [|discriminate].
  destruct (Observation.valueQuantity o) as [q|]; [|discriminate]. simpl.
  destruct (Quantity.value q) as [v|] eqn:Eqv; [|discriminate].
  destruct (Quantity.unit q) as [u|] eqn:Equ; [|discriminate].
  destruct (ToBoolean_string d) eqn:Ed; [|discriminate].
  destruct (ToBoolean_number v) eqn:Ev; [|discriminate].
  destruct (ToBoolean_string u) eqn:Eu; [|discriminate].
  simpl. intros [= <-].
  exists d, q, v, u. rewrite <- !ToBoolean_string_true.
  repeat split; assumption.
Qed.

Lemma missingField_unmeasured (o : Observation.t) :
  missingField o -> measure o = None.
Proof.
  unfold missingField, measured.
  intros [H|[H|H]]; rewrite H.
  - reflexivity.
  - now destruct (Observation.effectiveDateTime o).
  - now destruct (Observation.effectiveDateTime o),
                 (optChain (Observation.valueQuantity o) Quantity.value).
Qed.

Lemma routed_unmeasured (lit : string) (o : Observation.t) :
  measure o = None -> route lit o = None.
Proof.
  intros H. unfold routed. rewrite H. now destruct (strictEq _ _).
Qed.

Lemma series_without (pre post : list Observation.t) (o : Observation.t) :
  measure o = None -> series (pre ++ o :: post) = series (pre ++ post).
Proof.
  intros H. rewrite !seriesOf_keep, !keep_app. simpl.
  now rewrite !(routed_unmeasured _ _ H).
Qed.

Lemma falsy_patient (patientUuid : option string) :
  patientUuid = None \/ patientUuid = Some "" <->
  ToBoolean_opt ToBoolean_string patientUuid = false.
Proof.
  destruct patientUuid as [[|c s]|]; simpl; split; intros H; auto;
    try discriminate; destruct H; discriminate.
Qed.

Lemma ToBoolean_number_zero : ToBoolean_number 0%float = false.
Proof. reflexivity. Qed.

(** Outside the declared type: an element without its [resource] makes the
    callback throw, and the loop with it. *)
Lemma onEntry_without_resource (g : GrowthSeries.t) :
  exists message, entry (Entry.mk None) g = Abrupt (TypeError message).
Proof. eexists. reflexivity. Qed.

(** ** The properties of the specification *)

(** C1.  When [patientUuid] is falsy (the empty string, or [undefined]) the
    only key the hook passes to the collaborator is [null], so no fetch is
    issued; and with a collaborator that suppresses the request for the null
    key, the hook returns the empty series, [isLoading = false] and no
    error. *)
Theorem falsy_patient_suppresses_fetch (swr : Collaborator)
  (patientUuid : option string) :
  patientUuid = None \/ patientUuid = Some "" ->
  keysPassed swr (hook patientUuid) = [None]
  /\ (suppressesNullKey swr ->
      run swr (hook patientUuid) =
      Normal (HookResult.mk (GrowthSeries.mk [] []) false None)).
Proof.
  intros Hfalsy. apply falsy_patient in Hfalsy.
  assert (Hkey : key patientUuid = None) by (unfold swrKey; now rewrite Hfalsy).
  split.
  - now rewrite keysPassed_useGrowthData, Hkey.
  - intros Hswr. rewrite run_useGrowthData, Hkey, Hswr. reflexivity.
Qed.



(** C5.  The test of line 50 is a truthiness test: an entry whose date and
    quantity are present, but whose value is the number 0 or whose unit is
    the empty string, produces no measurement and is dropped from the
    series. *)
Theorem zero_value_or_empty_unit_is_dropped (o : Observation.t)
  (d : string) (q : Quantity.t) :
  Observation.effectiveDateTime o = Some d ->
  Observation.valueQuantity o = Some q ->
  Quantity.value q = Some 0%float \/ Quantity.unit q = Some "" ->
  (forall g, entry (Entry.mk (Some o)) g = Normal g)
  /\ (forall pre post, series (pre ++ o :: post) = series (pre ++ post)).
Proof.
  intros Hd Hq Hfalsy.
  assert (Hm : measure o = None).
  { unfold measured. rewrite Hd, Hq. simpl.
    destruct Hfalsy as [Hv|Hu].
    - rewrite Hv. destruct (Quantity.unit q); [|reflexivity].
      now rewrite ToBoolean_number_zero, andb_false_r.
    - rewrite Hu. destruct (Quantity.value q); [|reflexivity].
      simpl. now rewrite andb_false_r. }
  split.
  - intros g. now apply onEntry_unmeasured.
  - intros pre post. now apply series_without.
Qed.

(** C6.  When the collaborator's [data] is undefined, or is an object
    without the inner [data] array, the hook does not throw: it returns,
    with the two lists empty. *)
Theorem missing_wrapper_yields_empty_series (swr : Collaborator)
  (patientUuid : option string) :
  SWRResponse.data (swr (key patientUuid)) = None
  \/ (exists p, SWRResponse.data (swr (key patientUuid)) = Some p
                /\ Payload.data p = None) ->
  run swr (hook patientUuid) =
  Normal (HookResult.mk (GrowthSeries.mk [] [])
            (SWRResponse.isLoading (swr (key patientUuid)))
            (SWRResponse.error (swr (key patientUuid)))).
Proof.
  intros H. rewrite run_useGrowthData.
  destruct H as [H|(p & H & Hp)]; rewrite H; simpl.
  - reflexivity.
  - unfold reshape. now rewrite Hp.
Qed.

(** C7, as amended.  On a response whose payload, if any, has the declared
    type, the hook returns; the [error] of the result is the [error] of the
    collaborator, unchanged, and so is [isLoading]; [growthData] is a series
    in every state: the one built from the data of the response, which is
    the empty one whenever the response carries no data. *)
Theorem error_passes_through (swr : Collaborator)
  (patientUuid : option string) :
  declaredType (swr (key patientUuid)) ->
  exists res,
    run swr (hook patientUuid) = Normal res
    /\ HookResult.error res = SWRResponse.error (swr (key patientUuid))
    /\ HookResult.isLoading res
       = SWRResponse.isLoading (swr (key patientUuid))
    /\ reshape toLocaleDateString (SWRResponse.data (swr (key patientUuid)))
       = Normal (HookResult.growthData res)
    /\ (SWRResponse.data (swr (key patientUuid)) = None ->
        HookResult.growthData res = GrowthSeries.mk [] []).
Proof.
  intros Hty. rewrite run_useGrowthData.
  destruct (SWRResponse.data (swr (key patientUuid))) as [p|] eqn:Hd.
  - destruct (Payload.data p) as [entries|] eqn:Hp.
    + destruct (Hty p entries Hd Hp) as (obs & ->).
      unfold reshape. rewrite Hp, forEach_declared. simpl.
      eexists. repeat split. discriminate.
    + unfold reshape. rewrite Hp. simpl.
      eexists. repeat split.
  - simpl. eexists. repeat split.
Qed.

(** C8.  The series depends on the collaborator through the data of its
    response only: two invocations for the same [patientUuid] that get the
    same data return equal series (or throw the same exception), whatever
    the collaborator does elsewhere; and when they get the same response,
    the whole results are equal. *)
Theorem same_data_same_series (swr1 swr2 : Collaborator)
  (patientUuid : option string) :
  SWRResponse.data (swr1 (key patientUuid))
  = SWRResponse.data (swr2 (key patientUuid)) ->
  mapCompletion HookResult.growthData (run swr1 (hook patientUuid))
  = mapCompletion HookResult.growthData (run swr2 (hook patientUuid))
  /\ (swr1 (key patientUuid) = swr2 (key patientUuid) ->
      run swr1 (hook patientUuid) = run swr2 (hook patientUuid)).
Proof.
  intros H. split.
  - rewrite !run_useGrowthData, H.
    destruct (reshape _ _); reflexivity.
  - intros Hr. rewrite !run_useGrowthData, Hr. reflexivity.
Qed.

(** C10.  For a non-empty [patientUuid] the only key the hook passes to the
    collaborator is the query
    [<fhirBaseUrl>/Observation?patient=<patientUuid>&code=height,weight];
    when the fetch is suppressed, the key is [null]. *)
Theorem cache_key_is_the_query (swr : Collaborator)
  (patientUuid : option string) :
  (forall id, patientUuid = Some id -> id <> "" ->
     keysPassed swr (hook patientUuid) =
     [Some (fhirBaseUrl ++ "/Observation?patient=" ++ id
              ++ "&code=height,weight")%string])
  /\ (patientUuid = None \/ patientUuid = Some "" ->
      keysPassed swr (hook patientUuid) = [None]).
Proof.
  split.
  - intros id -> Hid. rewrite keysPassed_useGrowthData.
    unfold swrKey, apiUrl. simpl.
    apply ToBoolean_string_true in Hid. now rewrite Hid.
  - intros H. apply falsy_patient in H.
    rewrite keysPassed_useGrowthData. unfold swrKey. now rewrite H.
Qed.

End HookFacts.

(** ** The scenario, and the host it depends on *)

Lemma day_of_newYear2024 (offset : Z) :
  (0 <= offset < Date.msPerDay)%Z ->
  ((Scenario.newYear2024 + offset) / Date.msPerDay = 19723)%Z.
Proof.
  unfold Scenario.newYear2024, Date.msPerDay. intros H.
  symmetry. apply (Z.div_unique _ _ _ offset); lia.
Qed.

Lemma toLocaleDateString_newYear2024 (h : Date.Host) :
  (forall y m d, Date.formatDate h y m d = Date.en_US y m d) ->
  (0 <= Date.LocalTZA h Scenario.newYear2024 < Date.msPerDay)%Z ->
  Date.toLocaleDateString h "2024-01-01" = "1/1/2024".
Proof.
  intros Hfmt Htz. unfold Date.toLocaleDateString.
  change (Date.parse h "2024-01-01") with (Some Scenario.newYear2024).
  cbv beta iota.
  rewrite (day_of_newYear2024 _ Htz).
  change (Date.civilFromDays 19723) with (2024%Z, 1%Z, 1%Z).
  cbv beta iota.
  rewrite Hfmt. reflexivity.
Qed.

(** C9, as amended.  On a host whose locale prints dates as en-US does
    (month/day/year) and whose local time at 2024-01-01T00:00Z is UTC or
    ahead of it by less than a day, the scenario holds: for [patientUuid =
    "123"] and the one entry dated "2024-01-01" with value 70, unit "cm" and
    code "height", the height list is [{ date: "1/1/2024", value: 70, unit:
    "cm" }] and the weight list is empty. *)
Theorem scenario_on_en_US_host_east_of_UTC (h : Date.Host) :
  (forall y m d, Date.formatDate h y m d = Date.en_US y m d) ->
  (0 <= Date.LocalTZA h Scenario.newYear2024 < Date.msPerDay)%Z ->
  Scenario.holdsOn h.
Proof.
  intros Hfmt Htz fhirBaseUrl swr Hdata.
  rewrite run_useGrowthData, Hdata.
  unfold reshape, onEntry. simpl.
  rewrite (toLocaleDateString_newYear2024 h Hfmt Htz).
  eexists. split; reflexivity.
Qed.

(** C9, as stated, fails on a host west of UTC, where the date is the day
    before, and on a host with another locale, where the pattern differs. *)
Lemma scenario_fails_west_of_UTC_and_in_en_GB :
  ~ Scenario.holdsOn Date.new_york_en_US
  /\ ~ Scenario.holdsOn Date.london_en_GB
  /\ Date.toLocaleDateString Date.new_york_en_US "2024-01-01" = "12/31/2023"
  /\ Date.toLocaleDateString Date.london_en_GB "2024-01-01" = "01/01/2024".
Proof.
  repeat split; try reflexivity.
  - intros H.
    destruct (H Sample.fhirBaseUrl Sample.loaded eq_refl) as (res & Hrun & Hg).
    vm_compute in Hrun. injection Hrun as <-. vm_compute in Hg.
    discriminate Hg.
  - intros H.
    destruct (H Sample.fhirBaseUrl Sample.loaded eq_refl) as (res & Hrun & Hg).
    vm_compute in Hrun. injection Hrun as <-. vm_compute in Hg.
    discriminate Hg.
Qed.

(** C7, as stated, fails in the error state that keeps stale data: the
    collaborator reports an error next to the data of an earlier fetch, and
    the series the hook returns with that error is not empty. *)
Lemma stale_data_with_error_is_not_empty :
  SWRResponse.error (Sample.stale (swrKey Sample.fhirBaseUrl (Some "123")))
  = Some Sample.networkError
  /\ run Sample.stale
       (useGrowthData Sample.fhirBaseUrl Sample.toLocaleDateString
          (Some "123"))
     = Normal (HookResult.mk Scenario.expected false
                 (Some Sample.networkError))
  /\ Scenario.expected <> GrowthSeries.mk [] [].
Proof.
  split; [reflexivity|]. split; [reflexivity|]. discriminate.
Qed.

(** C3, on the code.  A payload element without [resource] lacks the three
    fields, and it is not skipped: on the payload [A; {}; B], with A a height
    and B a weight, the destructuring of line 47 throws, the loop is left and
    the hook returns nothing, where the payload [A; B] gives the height list
    [A] and the weight list [B]. *)
Theorem entry_without_resource_is_not_skipped :
  Case.brokenEntries
  = [Entry.mk (Some Sample.heightA); Entry.mk None;
     Entry.mk (Some Sample.weightB)]
  /\ (exists message,
         run Case.broken
           (useGrowthData Sample.fhirBaseUrl Sample.toLocaleDateString
              (Some "123")) = Abrupt (TypeError message))
  /\ run Case.mended
       (useGrowthData Sample.fhirBaseUrl Sample.toLocaleDateString
          (Some "123"))
     = Normal (HookResult.mk (GrowthSeries.mk [Sample.mA] [Sample.mB])
                 false None).
Proof.
  split; [reflexivity|]. split.
  - eexists. reflexivity.
  - reflexivity.
Qed.

(** ** The calendar of the host model, checked from 1970 to 2038 *)

Lemma civilFromDays_daysFromCivil_checked :
  Date.roundTrips (Z.to_nat 25000) 0 = true.
Proof. vm_compute. reflexivity. Qed.

(** ** The theorems at sample inputs *)

Lemma falsy_patient_suppresses_fetch_witness :
  (Some "" = None \/ Some "" = Some "")
  /\ suppressesNullKey Sample.failing
  /\ keysPassed Sample.failing
       (useGrowthData Sample.fhirBaseUrl Sample.toLocaleDateString (Some ""))
     = [None]
  /\ run Sample.failing
       (useGrowthData Sample.fhirBaseUrl Sample.toLocaleDateString (Some ""))
     = Normal (HookResult.mk (GrowthSeries.mk [] []) false None).
Proof.
  assert (Hfalsy : Some "" = None \/ Some "" = Some "") by (right; reflexivity).
  destruct (falsy_patient_suppresses_fetch Sample.fhirBaseUrl
              Sample.toLocaleDateString Sample.failing (Some "") Hfalsy)
    as [Hkeys Hrun].
  split; [exact Hfalsy|]. split; [reflexivity|].
  split; [exact Hkeys|]. apply Hrun. reflexivity.
Defined.



Lemma zero_value_or_empty_unit_is_dropped_witness :
  Quantity.value (Quantity.mk (Some 0%float) (Some "kg")) = Some 0%float
  /\ seriesOf Sample.toLocaleDateString
       [Sample.heightA; Sample.zeroValued; Sample.weightB]
     = seriesOf Sample.toLocaleDateString [Sample.heightA; Sample.weightB].
Proof.
  split; [reflexivity|].
  apply (proj2 (zero_value_or_empty_unit_is_dropped
                  Sample.toLocaleDateString Sample.zeroValued
                  "2024-04-01" (Quantity.mk (Some 0%float) (Some "kg"))
                  eq_refl eq_refl (or_introl eq_refl))
           [Sample.heightA] [Sample.weightB]).
Defined.

Lemma missing_wrapper_yields_empty_series_witness :
  (exists p,
      SWRResponse.data
        (Sample.unwrapped (swrKey Sample.fhirBaseUrl (Some "123"))) = Some p
      /\ Payload.data p = None)
  /\ run Sample.unwrapped
       (useGrowthData Sample.fhirBaseUrl Sample.toLocaleDateString
          (Some "123"))
     = Normal (HookResult.mk (GrowthSeries.mk [] []) false None).
Proof.
  assert (H : exists p,
             SWRResponse.data
               (Sample.unwrapped (swrKey Sample.fhirBaseUrl (Some "123")))
             = Some p /\ Payload.data p = None)
    by (exists (Payload.mk None); split; reflexivity).
  split; [exact H|].
  apply (missing_wrapper_yields_empty_series Sample.fhirBaseUrl
           Sample.toLocaleDateString Sample.unwrapped (Some "123")
           (or_intror H)).
Defined.

Lemma error_passes_through_witness :
  declaredType (Sample.failing (swrKey Sample.fhirBaseUrl (Some "123")))
  /\ exists res,
       run Sample.failing
         (useGrowthData Sample.fhirBaseUrl Sample.toLocaleDateString
            (Some "123")) = Normal res
       /\ HookResult.error res = Some Sample.networkError
       /\ HookResult.growthData res = GrowthSeries.mk [] [].
Proof.
  assert (Hty : declaredType
                  (Sample.failing (swrKey Sample.fhirBaseUrl (Some "123"))))
    by (intros p entries Hp; discriminate Hp).
  split; [exact Hty|].
  destruct (error_passes_through Sample.fhirBaseUrl
              Sample.toLocaleDateString Sample.failing (Some "123") Hty)
    as (res & Hrun & Herr & _ & _ & Hempty).
  exists res. split; [exact Hrun|]. split; [exact Herr|].
  apply Hempty. reflexivity.
Defined.

Lemma same_data_same_series_witness :
  SWRResponse.data (Sample.loaded (swrKey Sample.fhirBaseUrl (Some "123")))
  = SWRResponse.data
      (Sample.stale (swrKey Sample.fhirBaseUrl (Some "123")))
  /\ mapCompletion HookResult.growthData
       (run Sample.loaded
          (useGrowthData Sample.fhirBaseUrl Sample.toLocaleDateString
             (Some "123")))
     = mapCompletion HookResult.growthData
         (run Sample.stale
            (useGrowthData Sample.fhirBaseUrl Sample.toLocaleDateString
               (Some "123"))).
Proof.
  split; [reflexivity|].
  apply (proj1 (same_data_same_series Sample.fhirBaseUrl
                  Sample.toLocaleDateString Sample.loaded Sample.stale
                  (Some "123") eq_refl)).
Defined.

Lemma scenario_on_en_US_host_east_of_UTC_witness :
  (forall y m d,
      Date.formatDate Date.utc_en_US y m d = Date.en_US y m d)
  /\ (0 <= Date.LocalTZA Date.utc_en_US Scenario.newYear2024
      < Date.msPerDay)%Z
  /\ run Sample.loaded
       (useGrowthData Sample.fhirBaseUrl
          (Date.toLocaleDateString Date.utc_en_US) (Some "123"))
     = Normal (HookResult.mk Scenario.expected false None).
Proof.
  assert (Hfmt : forall y m d,
             Date.formatDate Date.utc_en_US y m d = Date.en_US y m d)
    by reflexivity.
  assert (Htz : (0 <= Date.LocalTZA Date.utc_en_US Scenario.newYear2024
                 < Date.msPerDay)%Z)
    by (unfold Date.msPerDay; simpl; lia).
  split; [exact Hfmt|]. split; [exact Htz|].
  destruct (scenario_on_en_US_host_east_of_UTC Date.utc_en_US Hfmt Htz
              Sample.fhirBaseUrl Sample.loaded eq_refl)
    as (res & Hrun & Hg).
  rewrite Hrun. clear Hg. vm_compute in Hrun.
  injection Hrun as <-. reflexivity.
Defined.

Lemma cache_key_is_the_query_witness :
  "123" <> ""
  /\ keysPassed Sample.loaded
       (useGrowthData Sample.fhirBaseUrl Sample.toLocaleDateString
          (Some "123"))
     = [Some "/ws/fhir2/R4/Observation?patient=123&code=height,weight"].
Proof.
  assert (Hid : "123" <> "") by discriminate.
  split; [exact Hid|].
  apply (proj1 (cache_key_is_the_query Sample.fhirBaseUrl
                  Sample.toLocaleDateString Sample.loaded (Some "123"))
           "123" eq_refl Hid).
Defined.

(** * Further properties of the hook *)

(** ** Strings *)

Lemma length_append (a b : string) :
  String.length (a ++ b)%string = String.length a + String.length b.
Proof.
  induction a as [|c a IH]; simpl; [reflexivity | now rewrite IH].
Qed.

Lemma append_inv_head (p x y : string) :
  (p ++ x = p ++ y)%string -> x = y.
Proof.
  induction p as [|c p IH]; simpl; intros H.
  - exact H.
  - injection H as H. now apply IH.
Qed.

Lemma append_inv_tail (a b s : string) :
  (a ++ s = b ++ s)%string -> a = b.
Proof.
  revert b. induction a as [|c a IH]; intros [|c' b] H.
  - reflexivity.
  - apply (f_equal String.length) in H. simpl in H.
    rewrite length_append in H. lia.
  - apply (f_equal String.length) in H. simpl in H.
    rewrite length_append in H. lia.
  - simpl in H. injection H as -> H. f_equal. now apply IH.
Qed.

(** ** Lists *)

Lemma keep_in {A B : Type} (f : A -> option B) (l : list A) (a : A) (b : B) :
  In a l -> f a = Some b -> In b (keep f l).
Proof.
  induction l as [|x l IH]; simpl; intros Hin Hf.
  - exact Hin.
  - destruct Hin as [->|Hin].
    + rewrite Hf. now left.
    + destruct (f x); [right|]; now apply IH.
Qed.

Lemma keep_lengths {A B : Type} (f g : A -> option B) (l : list A) :
  (forall a, f a = None \/ g a = None) ->
  length (keep f l) + length (keep g l) <= length l.
Proof.
  intros Hfg. induction l as [|a l IH]; simpl.
  - lia.
  - destruct (Hfg a) as [H|H]; rewrite H;
      [destruct (g a) | destruct (f a)]; simpl; lia.
Qed.

Section MoreHookFacts.

Variable fhirBaseUrl : string.
Variable toLocaleDateString : string -> string.

Local Abbreviation hook := (useGrowthData fhirBaseUrl toLocaleDateString).
Local Abbreviation key := (swrKey fhirBaseUrl).
Local Abbreviation entry := (onEntry toLocaleDateString).
Local Abbreviation measure := (measured toLocaleDateString).
Local Abbreviation route := (routed toLocaleDateString).
Local Abbreviation series := (seriesOf toLocaleDateString).

(** ** When the loop throws *)

Lemma forEach_abrupt (entries : list Entry.t) (g : GrowthSeries.t) :
  Exists withoutResource entries ->
  exists message, forEach entries entry g = Abrupt (TypeError message).
Proof.
  intros H. revert g.
  induction H as [x entries Hx|x entries _ IH]; intros g; simpl.
  - unfold withoutResource in Hx. unfold onEntry. rewrite Hx.
    eexists. reflexivity.
  - destruct x as [[o|]].
    + rewrite onEntry_declared. apply IH.
    + eexists. reflexivity.
Qed.

(** X1.  When the payload array holds an element without [resource], the
    hook throws a [TypeError]: it returns nothing, neither the measurements
    of the other entries nor the [error] and [isLoading] of the
    collaborator. *)
Theorem throws_when_an_entry_has_no_resource (swr : Collaborator)
  (patientUuid : option string) (p : Payload.t) (entries : list Entry.t) :
  SWRResponse.data (swr (key patientUuid)) = Some p ->
  Payload.data p = Some entries ->
  Exists withoutResource entries ->
  exists message,
    run swr (hook patientUuid) = Abrupt (TypeError message).
Proof.
  intros Hd Hp Hex. rewrite run_useGrowthData, Hd.
  unfold reshape. rewrite Hp.
  destruct (forEach_abrupt entries GrowthSeries.empty Hex) as (msg & ->).
  exists msg. reflexivity.
Qed.

(** X9.  On a payload whose elements all have a [resource], an observation
    that lacks [effectiveDateTime], [valueQuantity], its [value] or its
    [unit] adds nothing to either list, and the series is the one of the
    payload without it. *)
Theorem entries_missing_a_field_are_dropped (o : Observation.t)
  (pre post : list Observation.t) :
  Observation.effectiveDateTime o = None
  \/ Observation.valueQuantity o = None
  \/ (exists q, Observation.valueQuantity o = Some q
                /\ (Quantity.value q = None \/ Quantity.unit q = None)) ->
  (forall g, entry (Entry.mk (Some o)) g = Normal g)
  /\ series (pre ++ o :: post) = series (pre ++ post).
Proof.
  intros H.
  assert (Hm : measure o = None).
  { apply missingField_unmeasured. unfold missingField.
    destruct H as [H|[H|(q & H & [Hq|Hq])]].
    - now left.
    - right. left. now rewrite H.
    - right. left. rewrite H. exact Hq.
    - right. right. rewrite H. exact Hq. }
  split.
  - intros g. now apply onEntry_unmeasured.
  - now apply series_without.
Qed.

(** ** What the two lists hold *)

Lemma populated_measured (o : Observation.t) (m : Measurement.t) :
  populatedFrom toLocaleDateString o m -> measure o = Some m.
Proof.
  intros (d & q & v & u & Hd & Hq & Hv & Hu & Hd' & Hv' & Hu' & ->).
  unfold measured. rewrite Hd, Hq. simpl. rewrite Hv, Hu.
  apply ToBoolean_string_true in Hd', Hu'. now rewrite Hd', Hv', Hu'.
Qed.

Lemma codedAs_codeOf (lit : string) (o : Observation.t) :
  codedAs lit o <-> codeOf o = Some lit.
Proof.
  unfold codedAs, codeOf. destruct (firstCodingCode o) as [c|]; simpl.
  - split.
    + intros (c' & [= <-] & <-). reflexivity.
    + intros [= <-]. exists c. auto.
  - split; [intros (c' & H & _)|intros H]; discriminate H.
Qed.

Lemma routed_iff (lit : string) (o : Observation.t) (m : Measurement.t) :
  route lit o = Some m
  <-> populatedFrom toLocaleDateString o m /\ codedAs lit o.
Proof.
  unfold routed. rewrite codedAs_codeOf, <- strictEq_true.
  destruct (strictEq (codeOf o) lit); split.
  - intros H. split; [now apply measured_populated | reflexivity].
  - intros [H _]. now apply populated_measured.
  - discriminate.
  - intros [_ H]. discriminate H.
Qed.

(** X2.  On a payload of the declared type, a measurement is in the height
    list exactly when some observation of the payload has the three fields
    truthy, gives that measurement, and has a first coding code equal to
    "height" up to case; and so for the weight list with "weight".  Nothing
    else gets in, and nothing that qualifies is left out. *)
Theorem lists_hold_exactly_the_qualifying_entries
  (obs : list Observation.t) (m : Measurement.t) :
  exists g,
    series obs = Normal g
    /\ (In m (GrowthSeries.height g) <->
        exists o, In o obs /\ populatedFrom toLocaleDateString o m
                  /\ codedAs "height" o)
    /\ (In m (GrowthSeries.weight g) <->
        exists o, In o obs /\ populatedFrom toLocaleDateString o m
                  /\ codedAs "weight" o).
Proof.
  eexists. split; [apply seriesOf_keep|]. simpl.
  split; split.
  - intros H. apply in_keep in H. destruct H as (o & Ho & Hr).
    exists o. split; [exact Ho|]. now apply routed_iff.
  - intros (o & Ho & Hr). apply (keep_in _ _ o); [exact Ho|].
    now apply routed_iff.
  - intros H. apply in_keep in H. destruct H as (o & Ho & Hr).
    exists o. split; [exact Ho|]. now apply routed_iff.
  - intros (o & Ho & Hr). apply (keep_in _ _ o); [exact Ho|].
    now apply routed_iff.
Qed.

(** X3.  No entry is counted twice: on a payload of the declared type the
    two lists together are no longer than the payload. *)
Theorem lists_are_no_longer_than_the_payload (obs : list Observation.t) :
  exists g,
    series obs = Normal g
    /\ length (GrowthSeries.height g) + length (GrowthSeries.weight g)
       <= length obs.
Proof.
  eexists. split; [apply seriesOf_keep|]. simpl.
  apply keep_lengths. intros o. unfold routed.
  destruct (strictEq (codeOf o) "height") eqn:Eh.
  - right. now rewrite (height_is_not_weight _ Eh).
  - now left.
Qed.

Lemma routed_sameReading (lit : string) (o1 o2 : Observation.t) :
  sameReading o1 o2 -> route lit o1 = route lit o2.
Proof.
  intros (Hd & Hq & Hc). unfold routed, codeOf, measured.
  now rewrite Hd, Hq, Hc.
Qed.

(** X4.  The hook reads of an observation its date, its quantity and the
    code of its first coding, and nothing else: two payloads of the declared
    type whose observations agree on these, one by one, give the same
    series.  In particular the codings after the first are never looked
    at. *)
Theorem series_reads_date_quantity_and_first_code
  (obs1 obs2 : list Observation.t) :
  Forall2 sameReading obs1 obs2 -> series obs1 = series obs2.
Proof.
  intros H. rewrite !seriesOf_keep.
  assert (Hk : forall lit,
             keep (route lit) obs1 = keep (route lit) obs2).
  { intros lit. induction H as [|o1 o2 l1 l2 Hsame _ IH].
    - reflexivity.
    - simpl. rewrite (routed_sameReading lit _ _ Hsame), IH.
      reflexivity. }
  now rewrite !Hk.
Qed.

(** X6.  A value of negative zero or NaN is falsy like 0: an entry that
    carries one is dropped from the series, whatever its date, unit and
    code. *)
Theorem negative_zero_and_NaN_are_dropped (o : Observation.t)
  (q : Quantity.t) (v : number) (pre post : list Observation.t) :
  Observation.valueQuantity o = Some q ->
  Quantity.value q = Some v ->
  PrimFloat.is_zero v = true \/ PrimFloat.is_nan v = true ->
  series (pre ++ o :: post) = series (pre ++ post).
Proof.
  intros Hq Hv Hfalsy. apply series_without.
  unfold measured. rewrite Hq. simpl. rewrite Hv.
  destruct (Observation.effectiveDateTime o) as [d|]; [|reflexivity].
  destruct (Quantity.unit q) as [u|]; [|reflexivity].
  assert (Hb : ToBoolean_number v = false).
  { unfold ToBoolean_number.
    destruct Hfalsy as [H|H]; rewrite H; [reflexivity|].
    now rewrite orb_true_r. }
  now rewrite Hb, andb_false_r.
Qed.

(** X8.  An observation whose first coding code is neither "height" nor
    "weight" up to case, or that has none, is dropped from the series: the
    payload gives the series it gives without it. *)
Theorem other_codes_are_dropped (o : Observation.t)
  (pre post : list Observation.t) :
  ~ codedAs "height" o -> ~ codedAs "weight" o ->
  series (pre ++ o :: post) = series (pre ++ post).
Proof.
  rewrite !codedAs_codeOf, <- !strictEq_false. intros Hh Hw.
  rewrite !seriesOf_keep, !keep_app. simpl. unfold routed.
  now rewrite Hh, Hw.
Qed.

(** ** The key and the patient *)

(** X7.  The key determines the patient: when a key is passed for a truthy
    [patientUuid], no other [patientUuid], truthy or falsy, gives the same
    key.  Two patients never share a cache entry. *)
Theorem key_determines_patient (p1 p2 : option string) :
  ToBoolean_opt ToBoolean_string p1 = true ->
  key p1 = key p2 -> p1 = p2.
Proof.
  unfold swrKey, apiUrl. intros H1. rewrite H1.
  destruct (ToBoolean_opt ToBoolean_string p2) eqn:H2; [|discriminate].
  destruct p1 as [a|]; [|discriminate H1].
  destruct p2 as [b|]; [|discriminate H2].
  unfold template. intros [= H].
  apply (append_inv_head fhirBaseUrl) in H.
  apply (append_inv_head "/Observation?patient=") in H.
  apply append_inv_tail in H.
  now rewrite H.
Qed.

End MoreHookFacts.

(** ** Dates that cannot be read *)

(** X5.  The test of line 50 does not look into the date: when the host
    cannot read a non-empty [effectiveDateTime], the entry is kept all the
    same, and its measurement is dated "Invalid Date". *)
Theorem unreadable_date_is_kept_as_Invalid_Date (h : Date.Host)
  (o : Observation.t) (d : string) (q : Quantity.t) (v : number)
  (u : string) (g : GrowthSeries.t) :
  Observation.effectiveDateTime o = Some d ->
  d <> "" ->
  Date.parse h d = None ->
  Observation.valueQuantity o = Some q ->
  Quantity.value q = Some v -> ToBoolean_number v = true ->
  Quantity.unit q = Some u -> u <> "" ->
  codedAs "height" o ->
  onEntry (Date.toLocaleDateString h) (Entry.mk (Some o)) g
  = Normal (GrowthSeries.push_height
              (Measurement.mk "Invalid Date" v u) g).
Proof.
  intros Hd Hd' Hparse Hq Hv Hv' Hu Hu' Hc.
  rewrite onEntry_declared.
  assert (Hm : measured (Date.toLocaleDateString h) o
               = Some (Measurement.mk "Invalid Date" v u)).
  { apply populated_measured. exists d, q, v, u.
    repeat split; try assumption.
    unfold Date.toLocaleDateString. now rewrite Hparse. }
  rewrite Hm. apply codedAs_codeOf in Hc. now rewrite Hc.
Qed.

(** ** The further theorems at sample inputs *)

Lemma series_reads_date_quantity_and_first_code_witness :
  Forall2 sameReading [Sample.heightA; Case.loincFirst]
    [Sample.heightA; Case.loincOnly]
  /\ seriesOf Sample.toLocaleDateString [Sample.heightA; Case.loincFirst]
     = seriesOf Sample.toLocaleDateString [Sample.heightA; Case.loincOnly].
Proof.
  assert (H : Forall2 sameReading [Sample.heightA; Case.loincFirst]
                [Sample.heightA; Case.loincOnly])
    by (repeat constructor).
  split; [exact H|].
  apply (series_reads_date_quantity_and_first_code
           Sample.toLocaleDateString _ _ H).
Defined.

Lemma unreadable_date_is_kept_as_Invalid_Date_witness :
  Date.parse Date.utc_en_US "soon" = None
  /\ codedAs "height" Case.undatable
  /\ onEntry (Date.toLocaleDateString Date.utc_en_US)
       (Entry.mk (Some Case.undatable)) GrowthSeries.empty
     = Normal (GrowthSeries.mk
                 [Measurement.mk "Invalid Date" 70%float "cm"] []).
Proof.
  assert (Hc : codedAs "height" Case.undatable)
    by (exists "height"; split; reflexivity).
  split; [reflexivity|]. split; [exact Hc|].
  apply (unreadable_date_is_kept_as_Invalid_Date Date.utc_en_US
           Case.undatable "soon"
           (Quantity.mk (Some 70%float) (Some "cm")) 70%float "cm"
           GrowthSeries.empty eq_refl);
    try reflexivity; try discriminate; exact Hc.
Defined.

Lemma negative_zero_and_NaN_are_dropped_witness :
  PrimFloat.is_zero PrimFloat.neg_zero = true
  /\ seriesOf Sample.toLocaleDateString
       [Sample.heightA; Case.negativeZero; Sample.weightB]
     = seriesOf Sample.toLocaleDateString [Sample.heightA; Sample.weightB].
Proof.
  split; [reflexivity|].
  apply (negative_zero_and_NaN_are_dropped Sample.toLocaleDateString
           Case.negativeZero
           (Quantity.mk (Some PrimFloat.neg_zero) (Some "kg"))
           PrimFloat.neg_zero [Sample.heightA] [Sample.weightB]
           eq_refl eq_refl (or_introl eq_refl)).
Defined.

Lemma key_determines_patient_witness :
  ToBoolean_opt ToBoolean_string (Some "123") = true
  /\ swrKey Sample.fhirBaseUrl (Some "123")
     = swrKey Sample.fhirBaseUrl (Some "123")
  /\ Some "123" = Some "123".
Proof.
  split; [reflexivity|]. split; [reflexivity|].
  apply (key_determines_patient Sample.fhirBaseUrl (Some "123")
           (Some "123") eq_refl eq_refl).
Defined.

Lemma other_codes_are_dropped_witness :
  ~ codedAs "height" Sample.bmi
  /\ ~ codedAs "weight" Sample.bmi
  /\ seriesOf Sample.toLocaleDateString
       [Sample.heightA; Sample.bmi; Sample.weightB]
     = seriesOf Sample.toLocaleDateString [Sample.heightA; Sample.weightB].
Proof.
  assert (Hh : ~ codedAs "height" Sample.bmi)
    by (intros (c & [= <-] & H); discriminate H).
  assert (Hw : ~ codedAs "weight" Sample.bmi)
    by (intros (c & [= <-] & H); discriminate H).
  split; [exact Hh|]. split; [exact Hw|].
  apply (other_codes_are_dropped Sample.toLocaleDateString Sample.bmi
           [Sample.heightA] [Sample.weightB] Hh Hw).
Defined.

Lemma throws_when_an_entry_has_no_resource_witness :
  Exists withoutResource Case.brokenEntries
  /\ exists message,
       run Case.brokenAndFailing
         (useGrowthData Sample.fhirBaseUrl Sample.toLocaleDateString
            (Some "123")) = Abrupt (TypeError message).
Proof.
  assert (H : Exists withoutResource Case.brokenEntries)
    by (apply Exists_cons_tl, Exists_cons_hd; reflexivity).
  split; [exact H|].
  apply (throws_when_an_entry_has_no_resource Sample.fhirBaseUrl
           Sample.toLocaleDateString Case.brokenAndFailing (Some "123")
           (Payload.mk (Some Case.brokenEntries)) Case.brokenEntries
           eq_refl eq_refl H).
Defined.

Lemma entries_missing_a_field_are_dropped_witness :
  Observation.effectiveDateTime Sample.undated = None
  /\ seriesOf Sample.toLocaleDateString
       [Sample.heightA; Sample.undated; Sample.weightB]
     = Normal (GrowthSeries.mk [Sample.mA] [Sample.mB]).
Proof.
  split; [reflexivity|].
  transitivity (seriesOf Sample.toLocaleDateString
                  ([Sample.heightA] ++ [Sample.weightB])).
  - apply (proj2 (entries_missing_a_field_are_dropped
                    Sample.toLocaleDateString Sample.undated
                    [Sample.heightA] [Sample.weightB] (or_introl eq_refl))).
  - reflexivity.
Defined.
